(** * voting-app: a shallow embedding of [app.py] and its properties

    The program is a Flask service with four routes over two pieces of
    process-wide state: the [votes] dictionary and the Prometheus metrics
    ([REQUEST_COUNT], [RESPONSE_TIME]).  Handlers are embedded as functions
    in a state-and-exception monad; the Flask [request] object is a record
    holding what the handlers read from it. *)

From Stdlib Require Import ZArith String Ascii List PrimFloat Lia.
From stdpp Require Import gmap strings.
Import ListNotations.

Local Open Scope Z_scope.
Local Open Scope string_scope.

(** ** Python values *)

Module Py.

(** The values a handler can meet: what [json.loads] produces, and the
    [None]/[str] results of [dict.get].  A Python [int] is unbounded ([Z]);
    a Python [float] is an IEEE binary64 ([float]); a [dict] lists its
    members in insertion order, each key once. *)
#[local] Set Warnings "-register-all".
Inductive pyval : Type :=
| PNone
| PBool (b : bool)
| PInt (z : Z)
| PFloat (f : float)
| PStr (s : string)
| PList (l : list pyval)
| PDict (d : list (string * pyval)).

(** Exceptions that can leave a handler. *)
Inductive exn : Type :=
| HTTPException (code : Z)   (* raised by werkzeug while evaluating request.json *)
| AttributeError             (* [.get] on a value that is not a dict *)
| TypeError                  (* unhashable operand of [in] *)
| KeyError.                  (* subscript of a missing key *)

Inductive outcome (A : Type) : Type :=
| Ret (a : A)
| Raise (e : exn).
Arguments Ret {A} a.
Arguments Raise {A} e.

Definition str_empty (s : string) : bool :=
  match s with EmptyString => true | String _ _ => false end.

Definition list_empty {A} (l : list A) : bool :=
  match l with [] => true | _ :: _ => false end.

(** Truth value testing, [bool(v)]. *)
Definition truthy (v : pyval) : bool :=
  match v with
  | PNone => false
  | PBool b => b
  | PInt z => negb (Z.eqb z 0)
  | PFloat f => negb (PrimFloat.eqb f 0%float)
  | PStr s => negb (str_empty s)
  | PList l => negb (list_empty l)
  | PDict d => negb (list_empty d)
  end.

(** An insertion-ordered dictionary with [str] keys: first binding wins on
    lookup, assignment to an existing key keeps its position, assignment to
    a new key appends. *)
Section Dict.
Context {V : Type}.

Fixpoint dict_get (k : string) (d : list (string * V)) : option V :=
  match d with
  | [] => None
  | (k', v) :: d' => if String.eqb k k' then Some v else dict_get k d'
  end.

Definition dict_mem (k : string) (d : list (string * V)) : bool :=
  match dict_get k d with Some _ => true | None => false end.

Fixpoint dict_set (k : string) (v : V) (d : list (string * V)) : list (string * V) :=
  match d with
  | [] => [(k, v)]
  | (k', v') :: d' =>
      if String.eqb k k' then (k', v) :: d' else (k', v') :: dict_set k v d'
  end.

Definition dict_keys (d : list (string * V)) : list string := map fst d.
End Dict.

(** [None] or a [str], as returned by [MultiDict.get]. *)
Definition of_option_str (o : option string) : pyval :=
  match o with Some s => PStr s | None => PNone end.

(** *** [repr] of a [str] and of a list of [str]

    CPython picks double quotes when the text holds a single quote and no
    double quote, single quotes otherwise; it escapes the backslash, the
    chosen quote, tab, newline, carriage return, and writes the other ASCII
    control characters as [\xNN].  Bytes from 128 up (UTF-8 text) are kept
    as they are, which is what CPython does for printable characters. *)

Definition squote : ascii := "039"%char.
Definition dquote : ascii := "034"%char.
Definition backslash : ascii := "092"%char.

Fixpoint contains (c : ascii) (s : string) : bool :=
  match s with
  | EmptyString => false
  | String c' s' => Ascii.eqb c c' || contains c s'
  end.

Definition hex_digit (n : N) : ascii :=
  ascii_of_N (if (n <? 10)%N then 48 + n else 87 + n)%N.

Definition repr_char (q c : ascii) : string :=
  let n := N_of_ascii c in
  if Ascii.eqb c q || Ascii.eqb c backslash then String backslash (String c EmptyString)
  else if (n =? 9)%N then String backslash "t"
  else if (n =? 10)%N then String backslash "n"
  else if (n =? 13)%N then String backslash "r"
  else if (n <? 32)%N || (n =? 127)%N then
    String backslash (String "x" (String (hex_digit (n / 16)) (String (hex_digit (n mod 16)) EmptyString)))
  else String c EmptyString.

Fixpoint repr_body (q : ascii) (s : string) : string :=
  match s with
  | EmptyString => EmptyString
  | String c s' => repr_char q c ++ repr_body q s'
  end.

Definition repr_str (s : string) : string :=
  let q := if contains squote s && negb (contains dquote s) then dquote else squote in
  String q (repr_body q s ++ String q EmptyString).

Fixpoint join (sep : string) (l : list string) : string :=
  match l with
  | [] => EmptyString
  | [x] => x
  | x :: l' => x ++ sep ++ join sep l'
  end.

Definition repr_list_str (l : list string) : string :=
  "[" ++ join ", " (map repr_str l) ++ "]".

End Py.
Import Py.

(** ** Process state and requests *)

(** The two metrics of [prometheus_client].  A [Counter] child holds the
    number of [inc()] calls made on it; a [Histogram] child is kept as the
    sequence of observed values, oldest first.  [labels(...)] creates a child
    at zero (no observation) the first time a label tuple is used. *)
Record registry : Type := {
  REQUEST_COUNT : gmap (string * string) Z;
  RESPONSE_TIME : gmap string (list float)
}.

Record state : Type := {
  votes : list (string * Z);
  metrics_registry : registry
}.

(** What a handler reads from [flask.request]: the method, the parsed form
    (a multi-dict, in body order) and what evaluating [request.json] does,
    either a value or an exception raised by the framework. *)
Record request : Type := {
  method : string;
  form : list (string * string);
  json : outcome pyval
}.

(** What a view function returns. *)
Inductive response : Type :=
| Html (text : string)                        (* a bare [str] *)
| JsonStatus (body : pyval) (status : Z)      (* [(jsonify(body), status)] *)
| Raw (text : string) (mimetype : string).    (* [Response(text, mimetype=...)] *)

Definition OPTIONS : list string := ["Python"; "Java"; "Go"].

(** [votes = {"Python": 0, "Java": 0, "Go": 0}], no metric child yet. *)
Definition init : state := {|
  votes := [("Python", 0); ("Java", 0); ("Go", 0)];
  metrics_registry := {| REQUEST_COUNT := ∅; RESPONSE_TIME := ∅ |}
|}.

(** ** The handler monad: state passing with exceptions *)

Definition M (A : Type) : Type := state -> outcome A * state.

Definition ret {A} (a : A) : M A := fun st => (Ret a, st).

Definition raise {A} (e : exn) : M A := fun st => (Raise e, st).

Definition bind {A B} (m : M A) (k : A -> M B) : M B :=
  fun st =>
    match m st with
    | (Ret a, st') => k a st'
    | (Raise e, st') => (Raise e, st')
    end.

Definition lift {A} (o : outcome A) : M A := fun st => (o, st).

Definition get_votes : M (list (string * Z)) := fun st => (Ret (votes st), st).

Definition put_votes (v : list (string * Z)) : M unit :=
  fun st => (Ret tt, {| votes := v; metrics_registry := metrics_registry st |}).

Definition modify_registry (f : registry -> registry) : M unit :=
  fun st => (Ret tt, {| votes := votes st; metrics_registry := f (metrics_registry st) |}).

#[export] Instance M_ret : MRet M := @ret.
#[export] Instance M_bind : MBind M := fun A B k m => bind m k.

Definition handler : Type := request -> M response.

(** ** Metrics *)

Definition counter_value (k : string * string) (r : registry) : Z :=
  default 0 (REQUEST_COUNT r !! k).

Definition observations (endpoint : string) (r : registry) : list float :=
  default [] (RESPONSE_TIME r !! endpoint).

(** [REQUEST_COUNT.labels(endpoint=e, method=m).inc()] *)
Definition counter_inc (k : string * string) (r : registry) : registry :=
  {| REQUEST_COUNT := <[k := counter_value k r + 1]> (REQUEST_COUNT r);
     RESPONSE_TIME := RESPONSE_TIME r |}.

(** [RESPONSE_TIME.labels(endpoint=e).observe(d)] *)
Definition histogram_observe (endpoint : string) (d : float) (r : registry) : registry :=
  {| REQUEST_COUNT := REQUEST_COUNT r;
     RESPONSE_TIME := <[endpoint := (observations endpoint r ++ [d])%list]> (RESPONSE_TIME r) |}.

(** The decorator.  [start] and [stop] are the values the two calls of
    [time.time()] return.  An exception of [func] propagates past the
    observation. *)
Definition track_metrics (endpoint_name : string) (func : handler)
    (start stop : float) : handler :=
  fun req =>
    modify_registry (counter_inc (endpoint_name, method req)) ;;
    response ← func req ;
    let duration := PrimFloat.sub stop start in
    modify_registry (histogram_observe endpoint_name duration) ;;
    mret response.

(** ** Routes *)

Definition nl : string := String "010"%char EmptyString.
Definition dq : string := String dquote EmptyString.

(** The page of [home], line by line. *)
Definition home_page : string :=
  nl ++
  "    <h2>Vote for your favorite language</h2>" ++ nl ++
  "    <form action=" ++ dq ++ "/vote" ++ dq ++ " method=" ++ dq ++ "post" ++ dq ++ ">" ++ nl ++
  "        <input type=" ++ dq ++ "radio" ++ dq ++ " name=" ++ dq ++ "language" ++ dq
    ++ " value=" ++ dq ++ "Python" ++ dq ++ "> Python<br>" ++ nl ++
  "        <input type=" ++ dq ++ "radio" ++ dq ++ " name=" ++ dq ++ "language" ++ dq
    ++ " value=" ++ dq ++ "Java" ++ dq ++ "> Java<br>" ++ nl ++
  "        <input type=" ++ dq ++ "radio" ++ dq ++ " name=" ++ dq ++ "language" ++ dq
    ++ " value=" ++ dq ++ "Go" ++ dq ++ "> Go<br>" ++ nl ++
  "        <input type=" ++ dq ++ "submit" ++ dq ++ " value=" ++ dq ++ "Vote" ++ dq ++ ">" ++ nl ++
  "    </form>" ++ nl ++
  "    <br>" ++ nl ++
  "    <a href='/result'>View Results (JSON)</a>" ++ nl ++
  "    ".

Definition home : handler := fun _ => mret (Html home_page).

(** [MultiDict.get(k)]: the first value of [k], or [None]. *)
Fixpoint form_get (k : string) (f : list (string * string)) : option string :=
  match f with
  | [] => None
  | (k', v) :: f' => if String.eqb k k' then Some v else form_get k f'
  end.

(** [x.get(k)] for [x] the value of [request.json or {}]: only a dict has
    the method. *)
Definition py_get (x : pyval) (k : string) : M pyval :=
  match x with
  | PDict d => mret (default PNone (dict_get k d))
  | _ => raise AttributeError
  end.

(** [(request.json or {}).get("language")] *)
Definition json_language (req : request) : M pyval :=
  j ← lift (json req) ;
  py_get (if truthy j then j else PDict []) "language".

(** [request.form.get("language") or (request.json or {}).get("language")]:
    the right operand is evaluated only when the left one is falsy. *)
Definition vote_language (req : request) : M pyval :=
  let a := of_option_str (form_get "language" (form req)) in
  if truthy a then mret a else json_language req.

(** The test [language not in votes], returning the key found.  Hashing a
    list or a dict raises [TypeError]; every key of [votes] is a [str], so a
    hashable value of another type equals none of them. *)
Definition find_key (language : pyval) (vs : list (string * Z)) : M (option string) :=
  match language with
  | PList _ | PDict _ => raise TypeError
  | PStr s => mret (if dict_mem s vs then Some s else None)
  | PNone | PBool _ | PInt _ | PFloat _ => mret None
  end.

(** [votes[k] += 1] *)
Definition votes_incr (k : string) : M unit :=
  vs ← get_votes ;
  match dict_get k vs with
  | Some n => put_votes (dict_set k (n + 1) vs)
  | None => raise KeyError
  end.

(** The argument of [jsonify] for the dict [votes]. *)
Definition votes_json (vs : list (string * Z)) : pyval :=
  PDict (map (fun kv => (fst kv, PInt (snd kv))) vs).

Definition error_body (msg : string) : pyval := PDict [("error", PStr msg)].

Definition vote : handler := fun req =>
  language ← vote_language req ;
  if negb (truthy language) then
    mret (JsonStatus (error_body "No language provided") 400)
  else
    vs ← get_votes ;
    found ← find_key language vs ;
    match found with
    | None =>
        mret (JsonStatus
                (error_body ("Invalid choice. Valid: " ++ repr_list_str (dict_keys vs))) 400)
    | Some l =>
        votes_incr l ;;
        vs' ← get_votes ;
        mret (JsonStatus
                (PDict [("message", PStr ("Vote for " ++ l ++ " recorded!"));
                        ("votes", votes_json vs')]) 200)
    end.

Definition result : handler := fun _ =>
  vs ← get_votes ;
  mret (JsonStatus (votes_json vs) 200).

(** [generate_latest] and [CONTENT_TYPE_LATEST] belong to
    [prometheus_client]; the handler is embedded over them.  Called without
    argument, [generate_latest()] serialises the default registry: the two
    metrics of this file and the collectors the library registers itself
    (garbage collector, process, platform), whose samples are read from the
    process when the call is served and are given here as [collected]. *)
Definition metrics (generate_latest : registry -> string -> string)
    (content_type : string) (collected : string) : handler := fun _ =>
  fun st => (Ret (Raw (generate_latest (metrics_registry st) collected) content_type), st).

(** ** Dispatch and runs *)

Inductive route : Type := RHome | RVote | RResult | RMetrics.

(** The exposition library, as the [metrics] view uses it. *)
Record exposition : Type := {
  generate_latest : registry -> string -> string;
  CONTENT_TYPE_LATEST : string
}.

(** One request served: the route Flask matched, the request, the two
    clock readings of the decorator, and what the library's own collectors
    report at that time (read by /metrics only). *)
Record call : Type := {
  c_route : route;
  c_req : request;
  c_start : float;
  c_stop : float;
  c_collected : string
}.

Definition endpoint_of (r : route) : string :=
  match r with
  | RHome => "/"
  | RVote => "/vote"
  | RResult => "/result"
  | RMetrics => "/metrics"
  end.

(** The names [home], [vote] and [result] after decoration. *)
Definition home_view : float -> float -> handler := track_metrics "/" home.
Definition vote_view : float -> float -> handler := track_metrics "/vote" vote.
Definition result_view : float -> float -> handler := track_metrics "/result" result.

Definition serve (lib : exposition) (c : call) : M response :=
  match c_route c with
  | RHome => home_view (c_start c) (c_stop c) (c_req c)
  | RVote => vote_view (c_start c) (c_stop c) (c_req c)
  | RResult => result_view (c_start c) (c_stop c) (c_req c)
  | RMetrics =>
      metrics (generate_latest lib) (CONTENT_TYPE_LATEST lib) (c_collected c) (c_req c)
  end.

Definition step (lib : exposition) (st : state) (c : call) : state :=
  snd (serve lib c st).

Definition run (lib : exposition) (cs : list call) (st : state) : state :=
  fold_left (step lib) cs st.

(** ** Vocabulary of the properties *)

Definition form_language (req : request) : option string :=
  form_get "language" (form req).

(** The form has no usable [language]: no such field, or an empty one. *)
Definition form_falsy (req : request) : Prop :=
  form_language req = None \/ form_language req = Some EmptyString.

(** [request.json] is an object whose [language] member is [v]. *)
Definition json_has_language (req : request) (v : pyval) : Prop :=
  exists d, json req = Ret (PDict d) /\ dict_get "language" d = Some v.



(** The request carries the option [L]: in the form, or in the JSON body
    when the form has no usable field. *)
Definition supplies (req : request) (L : string) : Prop :=
  form_language req = Some L \/ (form_falsy req /\ json_has_language req (PStr L)).

(** The state the decorator leaves after the handler returned in [st]. *)
Definition observed (endpoint : string) (start stop : float) (st : state) : state :=
  {| votes := votes st;
     metrics_registry :=
       histogram_observe endpoint (PrimFloat.sub stop start) (metrics_registry st) |}.

(** The state the decorator calls the handler in. *)
Definition counted (endpoint : string) (req : request) (st : state) : state :=
  {| votes := votes st;
     metrics_registry := counter_inc (endpoint, method req) (metrics_registry st) |}.

(** Calls in [cs] that reach a decorated view under the label pair [k]. *)
Definition labels_of (c : call) : option (string * string) :=
  match c_route c with
  | RMetrics => None
  | r => Some (endpoint_of r, method (c_req c))
  end.

Definition hits (k : string * string) (cs : list call) : Z :=
  Z.of_nat (length (List.filter (fun c => bool_decide (labels_of c = Some k)) cs)).

(** Sample requests: a form post, a JSON post, a post with no body. *)
Definition form_post (l : string) : request :=
  {| method := "POST"; form := [("language", l)]; json := Ret PNone |}.

Definition json_post (v : pyval) : request :=
  {| method := "POST"; form := []; json := Ret (PDict [("language", v)]) |}.

Definition empty_post : request :=
  {| method := "POST"; form := []; json := Ret PNone |}.

Definition get_request : request :=
  {| method := "GET"; form := []; json := Ret PNone |}.

Definition vote_call (req : request) : call :=
  {| c_route := RVote; c_req := req; c_start := 0%float; c_stop := 1%float;
     c_collected := EmptyString |}.

(** Three votes for Python, then two for Java. *)
Definition scenario : list call :=
  map vote_call
    [form_post "Python"; form_post "Python"; form_post "Python";
     form_post "Java"; form_post "Java"].

Ltac run_monad :=
  unfold mbind, mret, M_bind, M_ret, bind, ret, raise, lift,
    get_votes, put_votes, modify_registry in *; simpl in *.

(** *** Vocabulary of the run properties *)

(** The value [vote] binds to [language], read off the request alone. *)
Definition language_of (req : request) : outcome pyval :=
  match form_language req with
  | Some (String c s) => Ret (PStr (String c s))
  | _ =>
      match json req with
      | Raise e => Raise e
      | Ret j =>
          if truthy j then
            match j with
            | PDict d => Ret (default PNone (dict_get "language" d))
            | _ => Raise AttributeError
            end
          else Ret PNone
      end
  end.

(** [vs[k] += 1] when [k] is a key of [vs]; nothing otherwise. *)
Definition bump (k : string) (vs : list (string * Z)) : list (string * Z) :=
  match dict_get k vs with
  | Some n => dict_set k (n + 1) vs
  | None => vs
  end.

(** The vote store after one served call, from the store before it. *)
Definition votes_after (c : call) (vs : list (string * Z)) : list (string * Z) :=
  match c_route c with
  | RVote =>
      match language_of (c_req c) with
      | Ret (PStr s) => if str_empty s then vs else bump s vs
      | _ => vs
      end
  | _ => vs
  end.

Definition tally_sum (vs : list (string * Z)) : Z :=
  fold_right Z.add 0 (map snd vs).

(** The outcomes of the calls of a run, in order, and the final state. *)
Fixpoint run_log (lib : exposition) (cs : list call) (st : state)
    : list (outcome response) * state :=
  match cs with
  | [] => ([], st)
  | c :: cs' =>
      let (o, st1) := serve lib c st in
      let (os, st2) := run_log lib cs' st1 in
      (o :: os, st2)
  end.

(** A call to /vote answered 200. *)
Definition is_recorded (c : call) (o : outcome response) : bool :=
  match c_route c, o with
  | RVote, Ret (JsonStatus _ status) => Z.eqb status 200
  | _, _ => false
  end.

Fixpoint count_recorded (cs : list call) (os : list (outcome response)) : Z :=
  match cs, os with
  | c :: cs', o :: os' => (if is_recorded c o then 1 else 0) + count_recorded cs' os'
  | _, _ => 0
  end.

(** The durations of the calls to endpoint [e] whose handler returned. *)
Fixpoint durations (e : string) (cs : list call) (os : list (outcome response))
    : list float :=
  match cs, os with
  | c :: cs', o :: os' =>
      (match labels_of c, o with
       | Some (e', _), Ret _ =>
           if String.eqb e' e then [PrimFloat.sub (c_stop c) (c_start c)] else []
       | _, _ => []
       end ++ durations e cs' os')%list
  | _, _ => []
  end.

Definition wrapped (c : call) : bool :=
  match c_route c with RMetrics => false | _ => true end.

(** The request [req] with another [request.json]. *)
Definition with_json (req : request) (j : outcome pyval) : request :=
  {| method := method req; form := form req; json := j |}.

(** A value [in] can hash: anything but a list or a dict. *)
Definition hashable (v : pyval) : bool :=
  match v with PList _ | PDict _ => false | _ => true end.

Definition is_str (v : pyval) : bool :=
  match v with PStr _ => true | _ => false end.

Definition is_dict (v : pyval) : bool :=
  match v with PDict _ => true | _ => false end.


Definition sample_lib : exposition :=
  {| generate_latest := fun _ _ => EmptyString; CONTENT_TYPE_LATEST := "text/plain" |}.

(** ** Dictionaries *)

Section DictFacts.
Context {V : Type}.
Implicit Types (d : list (string * V)) (k : string) (v : V).

Lemma dict_get_set_eq d k v : dict_get k (dict_set k v d) = Some v.
Proof.
  induction d as [|[k' v'] d IH]; simpl.
  - now rewrite String.eqb_refl.
  - destruct (String.eqb k k') eqn:E; simpl; rewrite E; auto.
Qed.

Lemma dict_get_set_ne d k k' v :
  k <> k' -> dict_get k' (dict_set k v d) = dict_get k' d.
Proof.
  intros Hne. induction d as [|[k0 v0] d IH]; simpl.
  - destruct (String.eqb k' k) eqn:E; auto.
    apply String.eqb_eq in E. congruence.
  - destruct (String.eqb k k0) eqn:E; simpl.
    + apply String.eqb_eq in E. subst k0.
      destruct (String.eqb k' k) eqn:E'; auto.
      apply String.eqb_eq in E'. congruence.
    + now rewrite IH.
Qed.

Lemma dict_keys_set d k v v0 :
  dict_get k d = Some v0 -> dict_keys (dict_set k v d) = dict_keys d.
Proof.
  unfold dict_keys.
  induction d as [|[k' v'] d IH]; simpl; [discriminate|].
  destruct (String.eqb k k') eqn:E; simpl; auto.
  intros H. now rewrite IH.
Qed.

Lemma dict_get_In d k : In k (dict_keys d) -> exists v, dict_get k d = Some v.
Proof.
  induction d as [|[k' v'] d IH]; simpl; [tauto|].
  intros [->|H].
  - rewrite String.eqb_refl. eauto.
  - destruct (String.eqb k k'); eauto.
Qed.

Lemma dict_get_not_In d k : ~ In k (dict_keys d) -> dict_get k d = None.
Proof.
  induction d as [|[k' v'] d IH]; simpl; auto.
  intros H. destruct (String.eqb k k') eqn:E.
  - apply String.eqb_eq in E. subst. tauto.
  - apply IH. tauto.
Qed.

Lemma dict_get_map {W} (f : V -> W) d k :
  dict_get k (map (fun kv => (fst kv, f (snd kv))) d) = option_map f (dict_get k d).
Proof.
  induction d as [|[k' v'] d IH]; simpl; auto.
  destruct (String.eqb k k'); auto.
Qed.

Lemma dict_get_nonempty d k v : dict_get k d = Some v -> list_empty d = false.
Proof. destruct d; simpl; [discriminate|auto]. Qed.

End DictFacts.

Lemma votes_json_get vs k :
  dict_get k (map (fun kv => (fst kv, PInt (snd kv))) vs) =
    option_map PInt (dict_get k vs).
Proof. apply dict_get_map. Qed.

(** ** Running the monad *)

Lemma track_metrics_run endpoint func start stop req st :
  track_metrics endpoint func start stop req st =
    match func req (counted endpoint req st) with
    | (Ret v, st2) => (Ret v, observed endpoint start stop st2)
    | (Raise e, st2) => (Raise e, st2)
    end.
Proof.
  unfold track_metrics. run_monad. unfold counted.
  destruct (func req _) as [[v|e] st2]; reflexivity.
Qed.

Lemma json_language_state req st : snd (json_language req st) = st.
Proof.
  unfold json_language, py_get. run_monad.
  destruct (json req) as [j|e]; simpl; auto.
  destruct (truthy j); simpl; auto.
  destruct j; reflexivity.
Qed.

Lemma vote_language_state req st : snd (vote_language req st) = st.
Proof.
  unfold vote_language.
  destruct (truthy _); [reflexivity | apply json_language_state].
Qed.

Lemma vote_language_form req st s :
  form_language req = Some s -> s <> EmptyString ->
  vote_language req st = (Ret (PStr s), st).
Proof.
  unfold vote_language, form_language. intros -> Hs.
  destruct s; [congruence | reflexivity].
Qed.

Lemma vote_language_json req st :
  form_falsy req -> vote_language req st = json_language req st.
Proof.
  unfold vote_language, form_falsy, form_language.
  intros [-> | ->]; reflexivity.
Qed.

Lemma json_language_has req st v :
  json_has_language req v -> json_language req st = (Ret v, st).
Proof.
  intros (d & Hj & Hd). unfold json_language. rewrite Hj. run_monad.
  rewrite (dict_get_nonempty _ _ _ Hd). simpl. now rewrite Hd.
Qed.


Lemma supplies_language req st L :
  L <> EmptyString -> supplies req L -> vote_language req st = (Ret (PStr L), st).
Proof.
  intros HL [Hf | [Hf Hj]].
  - now apply vote_language_form.
  - rewrite vote_language_json by assumption. now apply json_language_has.
Qed.

Lemma vote_missing req st v :
  vote_language req st = (Ret v, st) -> truthy v = false ->
  vote req st = (Ret (JsonStatus (error_body "No language provided") 400), st).
Proof.
  intros Hl Hv. unfold vote. run_monad. now rewrite Hl, Hv.
Qed.

Lemma vote_invalid req st s :
  vote_language req st = (Ret (PStr s), st) -> s <> EmptyString ->
  dict_get s (votes st) = None ->
  vote req st =
    (Ret (JsonStatus
            (error_body ("Invalid choice. Valid: " ++ repr_list_str (dict_keys (votes st))))
            400), st).
Proof.
  intros Hl Hs Hd. unfold vote. run_monad. rewrite Hl.
  destruct s; [congruence|]. simpl. unfold dict_mem. now rewrite Hd.
Qed.

Lemma vote_recorded req st s n :
  vote_language req st = (Ret (PStr s), st) -> s <> EmptyString ->
  dict_get s (votes st) = Some n ->
  let vs' := dict_set s (n + 1) (votes st) in
  vote req st =
    (Ret (JsonStatus
            (PDict [("message", PStr ("Vote for " ++ s ++ " recorded!"));
                    ("votes", votes_json vs')]) 200),
     {| votes := vs'; metrics_registry := metrics_registry st |}).
Proof.
  intros Hl Hs Hd. unfold vote, votes_incr. run_monad. rewrite Hl.
  destruct s; [congruence|]. simpl. unfold dict_mem. rewrite Hd. simpl.
  now rewrite Hd.
Qed.

(** ** POST /vote *)

Lemma OPTIONS_nonempty L : In L OPTIONS -> L <> EmptyString.
Proof. simpl. intuition (subst; discriminate). Qed.

(** C1: for every option [L] among "Python", "Java", "Go", a POST /vote
    request supplying [L] adds exactly 1 to the tally of [L], and answers 200
    with the message "Vote for L recorded!" and, under "votes", the whole
    updated tally map. *)
Theorem vote_view_records (L : string) (start stop : float) (req : request) (st : state) :
  In L OPTIONS -> dict_keys (votes st) = OPTIONS -> supplies req L ->
  exists n st',
    dict_get L (votes st) = Some n /\
    vote_view start stop req st =
      (Ret (JsonStatus
              (PDict [("message", PStr ("Vote for " ++ L ++ " recorded!"));
                      ("votes", votes_json (votes st'))]) 200), st') /\
    dict_get L (votes st') = Some (n + 1) /\
    (forall k, k <> L -> dict_get k (votes st') = dict_get k (votes st)) /\
    dict_keys (votes st') = OPTIONS.
Proof.
  intros HL Hkeys Hsup.
  assert (HLne := OPTIONS_nonempty L HL).
  destruct (dict_get_In (votes st) L) as [n Hn]; [now rewrite Hkeys|].
  pose proof (vote_recorded req (counted "/vote" req st) L n
                (supplies_language _ _ _ HLne Hsup) HLne Hn) as Hrun.
  simpl in Hrun.
  exists n.
  exists (observed "/vote" start stop
            {| votes := dict_set L (n + 1) (votes st);
               metrics_registry := metrics_registry (counted "/vote" req st) |}).
  split; [exact Hn|].
  unfold vote_view. rewrite track_metrics_run, Hrun.
  split; [reflexivity|]. simpl. split; [apply dict_get_set_eq|].
  split; [intros k Hk; now apply dict_get_set_ne|].
  rewrite <- Hkeys. eapply dict_keys_set; eauto.
Qed.

Lemma vote_view_records_witness :
  exists n st',
    dict_get "Go" (votes init) = Some n /\
    vote_view 0%float 1%float (form_post "Go") init =
      (Ret (JsonStatus
              (PDict [("message", PStr "Vote for Go recorded!");
                      ("votes", votes_json (votes st'))]) 200), st') /\
    dict_get "Go" (votes st') = Some (n + 1) /\
    (forall k, k <> "Go" -> dict_get k (votes st') = dict_get k (votes init)) /\
    dict_keys (votes st') = OPTIONS.
Proof.
  apply (vote_view_records "Go" 0%float 1%float (form_post "Go") init).
  - simpl; auto.
  - reflexivity.
  - left; reflexivity.
Defined.

(** C3: a POST /vote request supplying a non-empty value that is not a
    configured option answers 400 with an error whose message lists exactly
    the configured options, Python, Java, Go, and leaves the tally map as it
    was. *)
Theorem vote_view_invalid (L : string) (start stop : float) (req : request) (st : state) :
  L <> EmptyString -> ~ In L OPTIONS ->
  dict_keys (votes st) = OPTIONS -> supplies req L ->
  exists st',
    vote_view start stop req st =
      (Ret (JsonStatus
              (PDict [("error", PStr "Invalid choice. Valid: ['Python', 'Java', 'Go']")])
              400), st') /\
    "Invalid choice. Valid: ['Python', 'Java', 'Go']" =
      "Invalid choice. Valid: " ++ repr_list_str OPTIONS /\
    votes st' = votes st.
Proof.
  intros HLne HL Hkeys Hsup. eexists.
  unfold vote_view. rewrite track_metrics_run.
  rewrite (vote_invalid req (counted "/vote" req st) L);
    [| now apply supplies_language | assumption
     | simpl; apply dict_get_not_In; now rewrite Hkeys].
  simpl. rewrite Hkeys. repeat split; reflexivity.
Qed.

Lemma vote_view_invalid_witness :
  exists st',
    vote_view 0%float 1%float (json_post (PStr "Rust")) init =
      (Ret (JsonStatus
              (PDict [("error", PStr "Invalid choice. Valid: ['Python', 'Java', 'Go']")])
              400), st') /\
    "Invalid choice. Valid: ['Python', 'Java', 'Go']" =
      "Invalid choice. Valid: " ++ repr_list_str OPTIONS /\
    votes st' = votes init.
Proof.
  apply (vote_view_invalid "Rust" 0%float 1%float (json_post (PStr "Rust")) init).
  - discriminate.
  - simpl. intuition discriminate.
  - reflexivity.
  - right. split; [left; reflexivity|].
    exists [("language", PStr "Rust")]. split; reflexivity.
Defined.

(** ** The decorator *)

(** C7: for every wrapped handler and every request, the wrapper increments
    the request counter before it invokes the handler (the handler runs in
    the state [counted], where the counter of the label pair is one higher
    and nothing else differs), records one latency observation after the
    handler returns, and returns the handler's value unaltered. *)
Theorem track_metrics_spec (endpoint : string) (func : handler) (start stop : float)
    (req : request) (st : state) (v : response) (st2 : state) :
  func req (counted endpoint req st) = (Ret v, st2) ->
  let k := (endpoint, method req) in
  let r1 := metrics_registry (counted endpoint req st) in
  counter_value k r1 = counter_value k (metrics_registry st) + 1 /\
  (forall k', k' <> k -> counter_value k' r1 = counter_value k' (metrics_registry st)) /\
  RESPONSE_TIME r1 = RESPONSE_TIME (metrics_registry st) /\
  votes (counted endpoint req st) = votes st /\
  exists st3,
    track_metrics endpoint func start stop req st = (Ret v, st3) /\
    observations endpoint (metrics_registry st3) =
      (observations endpoint (metrics_registry st2) ++ [PrimFloat.sub stop start])%list /\
    (forall e, e <> endpoint ->
       observations e (metrics_registry st3) = observations e (metrics_registry st2)) /\
    REQUEST_COUNT (metrics_registry st3) = REQUEST_COUNT (metrics_registry st2) /\
    votes st3 = votes st2.
Proof.
  intros Hf k r1. subst k r1. simpl.
  split; [unfold counter_value at 1; simpl; now rewrite lookup_insert_eq|].
  split; [intros k' Hk; unfold counter_value at 1; simpl;
          rewrite lookup_insert_ne by congruence; reflexivity|].
  split; [reflexivity|]. split; [reflexivity|].
  exists (observed endpoint start stop st2).
  rewrite track_metrics_run, Hf. split; [reflexivity|].
  split; [unfold observations at 1; simpl; now rewrite lookup_insert_eq|].
  split; [|split; reflexivity].
  intros e He. unfold observations at 1. simpl.
  rewrite lookup_insert_ne by congruence. reflexivity.
Qed.

Lemma track_metrics_spec_witness :
  counter_value ("/result", "GET")
      (metrics_registry (counted "/result" get_request init)) =
    counter_value ("/result", "GET") (metrics_registry init) + 1 /\
  exists st3,
    track_metrics "/result" result 1.5%float 2.75%float get_request init =
      (Ret (JsonStatus (votes_json (votes init)) 200), st3) /\
    observations "/result" (metrics_registry st3) = [1.25%float].
Proof.
  destruct (track_metrics_spec "/result" result 1.5%float 2.75%float get_request init
              (JsonStatus (votes_json (votes init)) 200)
              (counted "/result" get_request init) eq_refl)
    as (Hc & _ & _ & _ & st3 & Hrun & Hobs & _).
  split; [exact Hc|].
  exists st3. split; [exact Hrun|]. rewrite Hobs. reflexivity.
Defined.

(** ** GET /result *)

(** C9: GET /result never fails and only reads: the handler answers 200 with
    the tally map and returns the state it was given, and two requests in a
    row, with no vote in between, get the same map while the vote store stays
    as it was. *)
Theorem result_read_only (start1 stop1 start2 stop2 : float) (req1 req2 : request)
    (st : state) :
  result req1 st = (Ret (JsonStatus (votes_json (votes st)) 200), st) /\
  exists st1 st2,
    result_view start1 stop1 req1 st =
      (Ret (JsonStatus (votes_json (votes st)) 200), st1) /\
    result_view start2 stop2 req2 st1 =
      (Ret (JsonStatus (votes_json (votes st)) 200), st2) /\
    votes st1 = votes st /\ votes st2 = votes st.
Proof.
  split; [reflexivity|].
  unfold result_view. rewrite track_metrics_run. simpl.
  eexists. eexists. split; [reflexivity|].
  rewrite track_metrics_run. simpl. repeat split.
Qed.

(** ** Runs of the service *)

(** A vote either leaves the state alone or bumps one existing tally. *)
Lemma vote_state req st :
  snd (vote req st) = st \/
  exists l n, dict_get l (votes st) = Some n /\
    snd (vote req st) =
      {| votes := dict_set l (n + 1) (votes st);
         metrics_registry := metrics_registry st |}.
Proof.
  pose proof (vote_language_state req st) as Hst.
  unfold vote, votes_incr, find_key. run_monad.
  destruct (vote_language req st) as [[language|e] st1]; simpl in Hst; subst st1;
    [|now left].
  destruct (truthy language); simpl; [|now left].
  destruct language; simpl; try now left.
  unfold dict_mem. destruct (dict_get s (votes st)) as [n|] eqn:E; simpl; [|now left].
  rewrite E. simpl. right. eauto.
Qed.

(** What one served call does to the state: the registry aside, the state
    is the one the handler leaves. *)
Lemma track_metrics_votes e f start stop req st :
  votes (snd (track_metrics e f start stop req st)) =
    votes (snd (f req (counted e req st))).
Proof.
  rewrite track_metrics_run.
  destruct (f req (counted e req st)) as [[v|x] st2]; reflexivity.
Qed.

Lemma track_metrics_counter e f start stop req st :
  REQUEST_COUNT (metrics_registry (snd (track_metrics e f start stop req st))) =
    REQUEST_COUNT (metrics_registry (snd (f req (counted e req st)))).
Proof.
  rewrite track_metrics_run.
  destruct (f req (counted e req st)) as [[v|x] st2]; reflexivity.
Qed.

Lemma step_votes lib st c :
  votes (step lib st c) = votes st \/
  exists l n, dict_get l (votes st) = Some n /\
    votes (step lib st c) = dict_set l (n + 1) (votes st).
Proof.
  unfold step, serve, home_view, vote_view, result_view.
  destruct (c_route c); try (rewrite track_metrics_votes); try now left.
  destruct (vote_state (c_req c) (counted "/vote" (c_req c) st)) as [-> | (l & n & Hn & ->)].
  - now left.
  - right. exists l, n. split; [exact Hn | reflexivity].
Qed.

Lemma step_keys lib st c : dict_keys (votes (step lib st c)) = dict_keys (votes st).
Proof.
  destruct (step_votes lib st c) as [-> | (l & n & Hn & ->)]; [reflexivity|].
  eapply dict_keys_set; eauto.
Qed.

Lemma step_monotone lib st c k n :
  dict_get k (votes st) = Some n ->
  exists n', dict_get k (votes (step lib st c)) = Some n' /\ n <= n'.
Proof.
  intros Hk. destruct (step_votes lib st c) as [-> | (l & m & Hm & ->)].
  - exists n. split; [assumption | lia].
  - destruct (String.eqb l k) eqn:E.
    + apply String.eqb_eq in E. subst l. rewrite dict_get_set_eq.
      exists (m + 1). split; [reflexivity|]. assert (m = n) by congruence. lia.
    + apply String.eqb_neq in E. rewrite dict_get_set_ne by assumption.
      exists n. split; [assumption | lia].
Qed.

Lemma run_cons lib c cs st : run lib (c :: cs) st = run lib cs (step lib st c).
Proof. reflexivity. Qed.

Lemma run_keys lib cs st : dict_keys (votes (run lib cs st)) = dict_keys (votes st).
Proof.
  revert st. induction cs as [|c cs IH]; intros st; [reflexivity|].
  rewrite run_cons, IH. apply step_keys.
Qed.

Lemma run_monotone lib cs st k n :
  dict_get k (votes st) = Some n ->
  exists n', dict_get k (votes (run lib cs st)) = Some n' /\ n <= n'.
Proof.
  revert st n. induction cs as [|c cs IH]; intros st n Hk.
  - exists n. split; [assumption | lia].
  - rewrite run_cons.
    destruct (step_monotone lib st c k n Hk) as (n1 & H1 & Hle1).
    destruct (IH _ _ H1) as (n2 & H2 & Hle2).
    exists n2. split; [exact H2 | lia].
Qed.

(** C4: starting from Python 0, Java 0, Go 0 and through every served
    request (home, vote, result, metrics), the keys of the vote store are
    exactly Python, Java, Go, none added and none removed, and the count of
    each option is a non-negative integer that never decreases. *)
Theorem votes_invariant (lib : exposition) (cs1 cs2 : list call) :
  votes init = [("Python", 0); ("Java", 0); ("Go", 0)] /\
  dict_keys (votes (run lib cs1 init)) = ["Python"; "Java"; "Go"] /\
  dict_keys (votes (run lib cs2 (run lib cs1 init))) = ["Python"; "Java"; "Go"] /\
  forall k, In k ["Python"; "Java"; "Go"] ->
    exists n1 n2,
      dict_get k (votes (run lib cs1 init)) = Some n1 /\
      dict_get k (votes (run lib cs2 (run lib cs1 init))) = Some n2 /\
      0 <= n1 <= n2.
Proof.
  split; [reflexivity|].
  split; [now rewrite run_keys|].
  split; [now rewrite !run_keys|].
  intros k Hk.
  assert (H0 : dict_get k (votes init) = Some 0).
  { simpl in Hk. destruct Hk as [<-|[<-|[<-|[]]]]; reflexivity. }
  destruct (run_monotone lib cs1 init k 0 H0) as (n1 & H1 & Hle1).
  destruct (run_monotone lib cs2 _ k n1 H1) as (n2 & H2 & Hle2).
  exists n1, n2. repeat split; assumption.
Qed.

Lemma vote_view_bumps start stop req st O n :
  O <> EmptyString -> supplies req O -> dict_get O (votes st) = Some n ->
  votes (snd (vote_view start stop req st)) = dict_set O (n + 1) (votes st).
Proof.
  intros HO Hsup Hn. unfold vote_view. rewrite track_metrics_votes.
  rewrite (vote_recorded req (counted "/vote" req st) O n);
    [reflexivity | now apply supplies_language | assumption | exact Hn].
Qed.

Lemma run_votes_for lib O cs st n :
  O <> EmptyString -> dict_get O (votes st) = Some n ->
  Forall (fun c => c_route c = RVote /\ supplies (c_req c) O) cs ->
  dict_get O (votes (run lib cs st)) = Some (n + Z.of_nat (length cs)) /\
  forall k, k <> O -> dict_get k (votes (run lib cs st)) = dict_get k (votes st).
Proof.
  intros HO. revert st n.
  induction cs as [|c cs IH]; intros st n Hn Hall.
  - simpl. split; [now rewrite Z.add_0_r | reflexivity].
  - inversion Hall as [|c' cs' [Hroute Hsup] Hrest]; subst.
    rewrite run_cons.
    assert (Hstep : votes (step lib st c) = dict_set O (n + 1) (votes st)).
    { unfold step, serve. rewrite Hroute. now apply vote_view_bumps. }
    destruct (IH (step lib st c) (n + 1)) as [IHO IHk];
      [rewrite Hstep; apply dict_get_set_eq | assumption |].
    split.
    + rewrite IHO. f_equal. simpl length. lia.
    + intros k Hk. rewrite IHk by assumption. rewrite Hstep.
      apply dict_get_set_ne. congruence.
Qed.

(** C5: for every valid option [O] and every number N of successful votes
    for [O] made one after the other from a state of the service, the value
    GET /result reports for [O] grows by exactly N and the value of every
    other key stays the same. *)
Theorem votes_accumulate (lib : exposition) (O : string) (cs : list call) (st : state)
    (start stop : float) (req : request) :
  In O OPTIONS -> dict_keys (votes st) = OPTIONS ->
  Forall (fun c => c_route c = RVote /\ supplies (c_req c) O) cs ->
  exists d0 d1 n st0 st1,
    result_view start stop req st = (Ret (JsonStatus (PDict d0) 200), st0) /\
    result_view start stop req (run lib cs st) = (Ret (JsonStatus (PDict d1) 200), st1) /\
    dict_get O d0 = Some (PInt n) /\
    dict_get O d1 = Some (PInt (n + Z.of_nat (length cs))) /\
    (forall k, k <> O -> dict_get k d1 = dict_get k d0) /\
    dict_keys d1 = dict_keys d0.
Proof.
  intros HO Hkeys Hall.
  assert (HOne := OPTIONS_nonempty O HO).
  destruct (dict_get_In (votes st) O) as [n Hn]; [now rewrite Hkeys|].
  destruct (run_votes_for lib O cs st n HOne Hn Hall) as [HrunO Hrunk].
  do 2 eexists. exists n. do 2 eexists.
  unfold result_view. rewrite !track_metrics_run. simpl. unfold votes_json.
  split; [reflexivity|]. split; [reflexivity|].
  split; [now rewrite votes_json_get, Hn|].
  split; [now rewrite votes_json_get, HrunO|].
  split.
  - intros k Hk. now rewrite !votes_json_get, Hrunk.
  - pose proof (run_keys lib cs st) as Hk. unfold dict_keys in *.
    rewrite !map_map. simpl. exact Hk.
Qed.

Lemma votes_accumulate_witness :
  exists d0 d1 n st0 st1,
    result_view 0%float 1%float get_request init =
      (Ret (JsonStatus (PDict d0) 200), st0) /\
    result_view 0%float 1%float get_request
        (run {| generate_latest := fun _ _ => EmptyString; CONTENT_TYPE_LATEST := "text/plain" |}
           [vote_call (form_post "Go"); vote_call (json_post (PStr "Go"))] init) =
      (Ret (JsonStatus (PDict d1) 200), st1) /\
    dict_get "Go" d0 = Some (PInt n) /\
    dict_get "Go" d1 = Some (PInt (n + 2)) /\
    (forall k, k <> "Go" -> dict_get k d1 = dict_get k d0) /\
    dict_keys d1 = dict_keys d0.
Proof.
  apply (votes_accumulate
           {| generate_latest := fun _ _ => EmptyString; CONTENT_TYPE_LATEST := "text/plain" |}
           "Go" [vote_call (form_post "Go"); vote_call (json_post (PStr "Go"))] init
           0%float 1%float get_request).
  - simpl; auto.
  - reflexivity.
  - apply List.Forall_cons.
    + split; [reflexivity | left; reflexivity].
    + apply List.Forall_cons; [|apply List.Forall_nil].
      split; [reflexivity|].
      right. split; [left; reflexivity|].
      exists [("language", PStr "Go")]. split; reflexivity.
Defined.

(** ** The request counter *)

Lemma vote_registry req st : metrics_registry (snd (vote req st)) = metrics_registry st.
Proof.
  destruct (vote_state req st) as [-> | (l & n & _ & ->)]; reflexivity.
Qed.

Lemma counter_value_inc k k' r :
  counter_value k (counter_inc k' r) =
    counter_value k r + (if bool_decide (k' = k) then 1 else 0).
Proof.
  unfold counter_value at 1. simpl. case_bool_decide as E.
  - subst. now rewrite lookup_insert_eq.
  - rewrite lookup_insert_ne by assumption. unfold counter_value. lia.
Qed.

Lemma step_counter lib st c k :
  counter_value k (metrics_registry (step lib st c)) =
    counter_value k (metrics_registry st) +
      (if bool_decide (labels_of c = Some k) then 1 else 0).
Proof.
  assert (Hdec : forall k', (if bool_decide (Some k' = Some k) then 1 else 0) =
                            (if bool_decide (k' = k) then 1 else 0)).
  { intros k'. repeat case_bool_decide; congruence. }
  unfold step, serve, labels_of, home_view, vote_view, result_view.
  destruct (c_route c); simpl endpoint_of; rewrite ?Hdec.
  - unfold counter_value at 1. rewrite track_metrics_counter. simpl.
    apply (counter_value_inc k _ (metrics_registry st)).
  - unfold counter_value at 1. rewrite track_metrics_counter, vote_registry. simpl.
    apply (counter_value_inc k _ (metrics_registry st)).
  - unfold counter_value at 1. rewrite track_metrics_counter. simpl.
    apply (counter_value_inc k _ (metrics_registry st)).
  - simpl. lia.
Qed.

Lemma hits_cons k c cs :
  hits k (c :: cs) = (if bool_decide (labels_of c = Some k) then 1 else 0) + hits k cs.
Proof.
  unfold hits. cbn [List.filter]. destruct (bool_decide (labels_of c = Some k)).
  - cbn [length]. rewrite Nat2Z.inj_succ. lia.
  - lia.
Qed.

Lemma run_counter lib cs st k :
  counter_value k (metrics_registry (run lib cs st)) =
    counter_value k (metrics_registry st) + hits k cs.
Proof.
  revert st. induction cs as [|c cs IH]; intros st.
  - unfold hits. simpl. lia.
  - rewrite run_cons, IH, step_counter, hits_cons. lia.
Qed.

(** C8: every request dispatched to a wrapped endpoint adds exactly one to
    the request counter of its (endpoint, method) label pair, so over any run
    the counter of a pair grows by the number of such requests; after three
    votes for Python and two for Java, five requests to /vote, the counter
    sample of endpoint /vote is 5. *)
Theorem request_counter_counts (lib : exposition) (c : call) (cs : list call)
    (st : state) (k : string * string) :
  (labels_of c = Some k ->
     counter_value k (metrics_registry (step lib st c)) =
       counter_value k (metrics_registry st) + 1) /\
  (forall k', labels_of c <> Some k' ->
     counter_value k' (metrics_registry (step lib st c)) =
       counter_value k' (metrics_registry st)) /\
  counter_value k (metrics_registry (run lib cs st)) =
    counter_value k (metrics_registry st) + hits k cs /\
  votes (run lib scenario init) = [("Python", 3); ("Java", 2); ("Go", 0)] /\
  counter_value ("/vote", "POST") (metrics_registry (run lib scenario init)) = 5 /\
  REQUEST_COUNT (metrics_registry (run lib scenario init)) = {[ ("/vote", "POST") := 5 ]}.
Proof.
  split; [|split; [|split; [|split; [|split]]]].
  - intros H. rewrite step_counter. now rewrite bool_decide_eq_true_2.
  - intros k' H. rewrite step_counter. rewrite bool_decide_eq_false_2 by assumption. lia.
  - apply run_counter.
  - reflexivity.
  - rewrite run_counter. reflexivity.
  - vm_compute. reflexivity.
Qed.

Lemma request_counter_counts_witness :
  counter_value ("/vote", "POST")
    (metrics_registry
       (step {| generate_latest := fun _ _ => EmptyString; CONTENT_TYPE_LATEST := "text/plain" |}
          init (vote_call (form_post "Rust")))) =
    counter_value ("/vote", "POST") (metrics_registry init) + 1 /\
  counter_value ("/result", "GET")
    (metrics_registry
       (step {| generate_latest := fun _ _ => EmptyString; CONTENT_TYPE_LATEST := "text/plain" |}
          init (vote_call (form_post "Rust")))) =
    counter_value ("/result", "GET") (metrics_registry init).
Proof.
  destruct (request_counter_counts
              {| generate_latest := fun _ _ => EmptyString; CONTENT_TYPE_LATEST := "text/plain" |}
              (vote_call (form_post "Rust")) [] init ("/vote", "POST"))
    as (H1 & H2 & _).
  split.
  - apply H1. reflexivity.
  - apply H2. discriminate.
Defined.

(** ** The outcomes of a vote *)

Lemma vote_language_pure req st : vote_language req st = (language_of req, st).
Proof.
  unfold vote_language, language_of, json_language, py_get, form_language.
  destruct (form_get "language" (form req)) as [[|c s]|]; simpl; try reflexivity;
    run_monad; destruct (json req) as [j|e]; simpl; try reflexivity;
    destruct (truthy j) eqn:T; simpl; try reflexivity;
    destruct j; try reflexivity; discriminate T.
Qed.

(** [vote], case by case on the value of [language]. *)
Lemma vote_cases req st :
  vote req st =
    match language_of req with
    | Raise e => (Raise e, st)
    | Ret v =>
        if negb (truthy v) then
          (Ret (JsonStatus (error_body "No language provided") 400), st)
        else
          match v with
          | PList _ | PDict _ => (Raise TypeError, st)
          | PStr s =>
              match dict_get s (votes st) with
              | Some n =>
                  (Ret (JsonStatus
                          (PDict [("message", PStr ("Vote for " ++ s ++ " recorded!"));
                                  ("votes", votes_json (dict_set s (n + 1) (votes st)))])
                          200),
                   {| votes := dict_set s (n + 1) (votes st);
                      metrics_registry := metrics_registry st |})
              | None =>
                  (Ret (JsonStatus
                          (error_body ("Invalid choice. Valid: "
                                       ++ repr_list_str (dict_keys (votes st)))) 400), st)
              end
          | _ =>
              (Ret (JsonStatus
                      (error_body ("Invalid choice. Valid: "
                                   ++ repr_list_str (dict_keys (votes st)))) 400), st)
          end
    end.
Proof.
  unfold vote, votes_incr, find_key. run_monad. rewrite vote_language_pure.
  destruct (language_of req) as [v|e]; [|reflexivity].
  destruct (truthy v) eqn:T; simpl; [|reflexivity].
  destruct v; simpl; try reflexivity.
  unfold dict_mem. destruct (dict_get s (votes st)) as [n|] eqn:E; simpl; [|reflexivity].
  rewrite E. reflexivity.
Qed.

Lemma language_of_json req :
  form_falsy req ->
  language_of req =
    match json req with
    | Raise e => Raise e
    | Ret j =>
        if truthy j then
          match j with
          | PDict d => Ret (default PNone (dict_get "language" d))
          | _ => Raise AttributeError
          end
        else Ret PNone
    end.
Proof.
  unfold language_of, form_falsy. intros [-> | ->]; reflexivity.
Qed.

Lemma language_of_member req v :
  form_falsy req -> json_has_language req v -> language_of req = Ret v.
Proof.
  intros Hf (d & Hj & Hd). rewrite language_of_json, Hj by assumption. simpl.
  rewrite (dict_get_nonempty _ _ _ Hd). simpl. now rewrite Hd.
Qed.

Lemma language_of_raises req e :
  language_of req = Raise e ->
  json req = Raise e \/ e = AttributeError.
Proof.
  unfold language_of.
  destruct (form_language req) as [[|c s]|]; try discriminate;
    (destruct (json req) as [j|e']; [|intros [= ->]; now left]);
    (destruct (truthy j); [|discriminate]);
    destruct j; intros [= <-]; now right.
Qed.

(** X1: whatever the request and the state, the decorated /vote view does
    one of three things.  It raises, with the exception of [request.json] or
    an AttributeError or a TypeError, never the KeyError of the subscript, the
    request counted and no latency observed; or it answers 400 with an error
    body and the vote store as it was; or it answers 200 after adding one to
    the tally of an existing, non-empty key. *)
Theorem vote_view_outcomes (start stop : float) (req : request) (st : state) :
  (exists e,
     (json req = Raise e \/ e = AttributeError \/ e = TypeError) /\
     vote_view start stop req st = (Raise e, counted "/vote" req st)) \/
  (exists msg,
     vote_view start stop req st =
       (Ret (JsonStatus (PDict [("error", PStr msg)]) 400),
        observed "/vote" start stop (counted "/vote" req st))) \/
  (exists l n,
     l <> EmptyString /\ dict_get l (votes st) = Some n /\
     vote_view start stop req st =
       (Ret (JsonStatus
               (PDict [("message", PStr ("Vote for " ++ l ++ " recorded!"));
                       ("votes", votes_json (dict_set l (n + 1) (votes st)))]) 200),
        observed "/vote" start stop
          {| votes := dict_set l (n + 1) (votes st);
             metrics_registry := metrics_registry (counted "/vote" req st) |})).
Proof.
  unfold vote_view. rewrite track_metrics_run, vote_cases.
  destruct (language_of req) as [v|e] eqn:L.
  - destruct (truthy v) eqn:T; simpl.
    + destruct v; simpl;
        try (right; left; eexists; reflexivity);
        try (left; exists TypeError; split; [auto | reflexivity]).
      destruct (dict_get s (votes st)) as [n|] eqn:E.
      * right. right. exists s, n. split; [|split; [exact E | reflexivity]].
        intros ->. discriminate T.
      * right. left. eexists. reflexivity.
    + right. left. eexists. reflexivity.
  - left. exists e. split; [|reflexivity].
    destruct (language_of_raises req e L); auto.
Qed.

Lemma vote_view_cases start stop req st :
  vote_view start stop req st =
    match vote req (counted "/vote" req st) with
    | (Ret v, st2) => (Ret v, observed "/vote" start stop st2)
    | (Raise e, st2) => (Raise e, st2)
    end.
Proof. apply track_metrics_run. Qed.

(** X2: when the form has no usable [language] and evaluating
    [request.json] raises, the view raises the same exception; the request
    has been counted, no latency is observed and the vote store is as it
    was. *)
Theorem vote_view_json_raises (start stop : float) (req : request) (st : state)
    (e : exn) :
  form_falsy req -> json req = Raise e ->
  vote_view start stop req st = (Raise e, counted "/vote" req st).
Proof.
  intros Hf Hj. rewrite vote_view_cases, vote_cases, language_of_json, Hj by assumption.
  reflexivity.
Qed.

Lemma vote_view_json_raises_witness :
  vote_view 0%float 1%float (with_json empty_post (Raise (HTTPException 415))) init =
    (Raise (HTTPException 415),
     counted "/vote" (with_json empty_post (Raise (HTTPException 415))) init).
Proof.
  apply (vote_view_json_raises 0%float 1%float
           (with_json empty_post (Raise (HTTPException 415))) init (HTTPException 415)).
  - left; reflexivity.
  - reflexivity.
Defined.

(** X3: when the form has no usable [language] and the JSON body is a
    truthy value that is not an object (a non-empty array or string, a
    non-zero number, true), the call of [.get] raises AttributeError; the
    request has been counted, no latency is observed and the vote store is
    as it was. *)
Theorem vote_view_json_not_object (start stop : float) (req : request) (st : state)
    (j : pyval) :
  form_falsy req -> json req = Ret j -> truthy j = true -> is_dict j = false ->
  vote_view start stop req st = (Raise AttributeError, counted "/vote" req st).
Proof.
  intros Hf Hj Ht Hd.
  rewrite vote_view_cases, vote_cases, language_of_json, Hj, Ht by assumption.
  destruct j; try reflexivity. discriminate Hd.
Qed.

Lemma vote_view_json_not_object_witness :
  vote_view 0%float 1%float (with_json empty_post (Ret (PList [PStr "Go"]))) init =
    (Raise AttributeError,
     counted "/vote" (with_json empty_post (Ret (PList [PStr "Go"]))) init).
Proof.
  apply (vote_view_json_not_object 0%float 1%float
           (with_json empty_post (Ret (PList [PStr "Go"]))) init (PList [PStr "Go"])).
  - left; reflexivity.
  - reflexivity.
  - reflexivity.
  - reflexivity.
Defined.

(** X4: when the form has no usable [language] and the JSON [language]
    member is a non-empty array or object, the membership test raises
    TypeError; the request has been counted, no latency is observed and the
    vote store is as it was. *)
Theorem vote_view_unhashable (start stop : float) (req : request) (st : state)
    (v : pyval) :
  form_falsy req -> json_has_language req v ->
  truthy v = true -> hashable v = false ->
  vote_view start stop req st = (Raise TypeError, counted "/vote" req st).
Proof.
  intros Hf Hj Ht Hh.
  rewrite vote_view_cases, vote_cases, (language_of_member req v), Ht by assumption.
  destruct v; try discriminate Hh; reflexivity.
Qed.

Lemma vote_view_unhashable_witness :
  vote_view 0%float 1%float (json_post (PList [PStr "Go"])) init =
    (Raise TypeError, counted "/vote" (json_post (PList [PStr "Go"])) init).
Proof.
  apply (vote_view_unhashable 0%float 1%float (json_post (PList [PStr "Go"])) init
           (PList [PStr "Go"])).
  - left; reflexivity.
  - exists [("language", PList [PStr "Go"])]. split; reflexivity.
  - reflexivity.
  - reflexivity.
Defined.

(** X5: when the form has no usable [language] and the JSON [language]
    member is a truthy value that is hashable but not a string (a non-zero
    number, true), the view answers 400 with the invalid-choice error that
    lists the keys of the vote store, and the store is as it was. *)
Theorem vote_view_non_string (start stop : float) (req : request) (st : state)
    (v : pyval) :
  form_falsy req -> json_has_language req v ->
  truthy v = true -> hashable v = true -> is_str v = false ->
  vote_view start stop req st =
    (Ret (JsonStatus
            (PDict [("error",
                     PStr ("Invalid choice. Valid: " ++ repr_list_str (dict_keys (votes st))))])
            400),
     observed "/vote" start stop (counted "/vote" req st)).
Proof.
  intros Hf Hj Ht Hh Hs.
  rewrite vote_view_cases, vote_cases, (language_of_member req v), Ht by assumption.
  destruct v; try discriminate Hh; try discriminate Hs; reflexivity.
Qed.

Lemma vote_view_non_string_witness :
  vote_view 0%float 1%float (json_post (PInt 7)) init =
    (Ret (JsonStatus
            (PDict [("error", PStr "Invalid choice. Valid: ['Python', 'Java', 'Go']")])
            400),
     observed "/vote" 0%float 1%float (counted "/vote" (json_post (PInt 7)) init)).
Proof.
  apply (vote_view_non_string 0%float 1%float (json_post (PInt 7)) init (PInt 7)).
  - left; reflexivity.
  - exists [("language", PInt 7)]. split; reflexivity.
  - reflexivity.
  - reflexivity.
  - reflexivity.
Defined.

(** X6: when the form has no usable [language] and the JSON [language]
    member is any falsy value (null, false, 0, 0.0, an empty string, array or
    object), the view answers 400 with "No language provided" and the vote
    store is as it was. *)
Theorem vote_view_falsy_member (start stop : float) (req : request) (st : state)
    (v : pyval) :
  form_falsy req -> json_has_language req v -> truthy v = false ->
  vote_view start stop req st =
    (Ret (JsonStatus (PDict [("error", PStr "No language provided")]) 400),
     observed "/vote" start stop (counted "/vote" req st)).
Proof.
  intros Hf Hj Ht.
  rewrite vote_view_cases, vote_cases, (language_of_member req v), Ht by assumption.
  reflexivity.
Qed.

Lemma vote_view_falsy_member_witness :
  vote_view 0%float 1%float (json_post (PFloat (-0)%float)) init =
    (Ret (JsonStatus (PDict [("error", PStr "No language provided")]) 400),
     observed "/vote" 0%float 1%float
       (counted "/vote" (json_post (PFloat (-0)%float)) init)).
Proof.
  apply (vote_view_falsy_member 0%float 1%float (json_post (PFloat (-0)%float)) init
           (PFloat (-0)%float)).
  - left; reflexivity.
  - exists [("language", PFloat (-0)%float)]. split; reflexivity.
  - reflexivity.
Defined.

(** X7: when the form carries a non-empty [language], [request.json] is
    never evaluated: the answer and the final state are the same whatever
    the JSON body is, also when evaluating it would raise. *)
Theorem vote_view_ignores_json (start stop : float) (req : request) (st : state)
    (s : string) (j : outcome pyval) :
  form_language req = Some s -> s <> EmptyString ->
  vote_view start stop (with_json req j) st = vote_view start stop req st.
Proof.
  intros Hf Hs. rewrite !vote_view_cases, !vote_cases.
  assert (L : forall r, form_language r = Some s -> language_of r = Ret (PStr s)).
  { intros r Hr. unfold language_of. rewrite Hr. destruct s; [congruence | reflexivity]. }
  rewrite (L req Hf), (L (with_json req j) Hf). reflexivity.
Qed.

Lemma vote_view_ignores_json_witness :
  vote_view 0%float 1%float
      (with_json (form_post "Go") (Raise (HTTPException 415))) init =
    vote_view 0%float 1%float (form_post "Go") init.
Proof.
  apply (vote_view_ignores_json 0%float 1%float (form_post "Go") init "Go"
           (Raise (HTTPException 415))).
  - reflexivity.
  - discriminate.
Defined.

(** X8: the tally map a successful vote returns under "votes" is the map a
    GET /result served right after it returns. *)
Theorem vote_body_matches_result (start stop start2 stop2 : float) (req req2 : request)
    (st st' : state) (body : pyval) :
  vote_view start stop req st = (Ret (JsonStatus body 200), st') ->
  exists msg tallies st'',
    body = PDict [("message", PStr msg); ("votes", tallies)] /\
    result_view start2 stop2 req2 st' = (Ret (JsonStatus tallies 200), st'').
Proof.
  intros H.
  destruct (vote_view_outcomes start stop req st)
    as [(e & _ & He) | [(msg & Hm) | (l & n & _ & _ & Hl)]].
  - rewrite He in H. discriminate H.
  - rewrite Hm in H. discriminate H.
  - rewrite Hl in H. injection H as <- <-.
    do 3 eexists. split; [reflexivity|].
    unfold result_view. rewrite track_metrics_run. reflexivity.
Qed.

Lemma vote_body_matches_result_witness :
  exists msg tallies st'',
    PDict [("message", PStr "Vote for Java recorded!");
           ("votes", votes_json [("Python", 0); ("Java", 1); ("Go", 0)])] =
      PDict [("message", PStr msg); ("votes", tallies)] /\
    result_view 2%float 3%float get_request
        (snd (vote_view 0%float 1%float (form_post "Java") init)) =
      (Ret (JsonStatus tallies 200), st'').
Proof.
  apply (vote_body_matches_result 0%float 1%float 2%float 3%float
           (form_post "Java") get_request init).
  reflexivity.
Defined.

(** ** Whole runs *)

Lemma step_metrics lib st c : c_route c = RMetrics -> step lib st c = st.
Proof. unfold step, serve. intros ->. reflexivity. Qed.

Lemma step_wrapped lib lib' st c : wrapped c = true -> step lib st c = step lib' st c.
Proof. unfold wrapped, step, serve. destruct (c_route c); [reflexivity..|discriminate]. Qed.

(** X9: GET /metrics is invisible to the service, and so is the exposition
    library: a run ends in the same state (vote store, counters and
    histograms) when every /metrics call is taken out of it and another
    library serialises the registry. *)
Theorem run_ignores_metrics (lib lib' : exposition) (cs : list call) (st : state) :
  run lib cs st = run lib' (List.filter wrapped cs) st.
Proof.
  revert st. induction cs as [|c cs IH]; intros st; [reflexivity|].
  rewrite run_cons. cbn [List.filter].
  destruct (wrapped c) eqn:W.
  - rewrite run_cons, IH. now rewrite (step_wrapped lib lib').
  - rewrite IH. f_equal. apply step_metrics.
    unfold wrapped in W. destruct (c_route c); [discriminate..|reflexivity].
Qed.

Lemma run_log_run lib cs st : snd (run_log lib cs st) = run lib cs st.
Proof.
  revert st. induction cs as [|c cs IH]; intros st; [reflexivity|].
  rewrite run_cons. cbn [run_log]. unfold step.
  destruct (serve lib c st) as [o st1]. specialize (IH st1).
  destruct (run_log lib cs st1) as [os st2]. exact IH.
Qed.

Lemma run_log_cons lib c cs st :
  fst (run_log lib (c :: cs) st) =
    fst (serve lib c st) :: fst (run_log lib cs (step lib st c)).
Proof.
  cbn [run_log]. unfold step. destruct (serve lib c st) as [o st1]. simpl.
  destruct (run_log lib cs st1) as [os st2]. reflexivity.
Qed.

Lemma observations_observe e e' d r :
  observations e (histogram_observe e' d r) =
    (observations e r ++ (if String.eqb e' e then [d] else []))%list.
Proof.
  unfold observations at 1. simpl. destruct (String.eqb e' e) eqn:E.
  - apply String.eqb_eq in E. subst. now rewrite lookup_insert_eq.
  - apply String.eqb_neq in E. rewrite lookup_insert_ne by assumption.
    now rewrite app_nil_r.
Qed.

(** A decorated handler that leaves the registry alone adds the duration to
    its endpoint when it returns, and nothing when it raises. *)
Lemma track_metrics_observations e' f start stop req st e :
  metrics_registry (snd (f req (counted e' req st))) =
    metrics_registry (counted e' req st) ->
  observations e (metrics_registry (snd (track_metrics e' f start stop req st))) =
    (observations e (metrics_registry st) ++
       match fst (track_metrics e' f start stop req st) with
       | Ret _ => if String.eqb e' e then [PrimFloat.sub stop start] else []
       | Raise _ => []
       end)%list.
Proof.
  rewrite track_metrics_run.
  destruct (f req (counted e' req st)) as [[v|x] st2]; simpl; intros ->.
  - now rewrite observations_observe.
  - now rewrite app_nil_r.
Qed.

Lemma step_observations lib st c e :
  observations e (metrics_registry (step lib st c)) =
    (observations e (metrics_registry st) ++
       match labels_of c, fst (serve lib c st) with
       | Some (e', _), Ret _ =>
           if String.eqb e' e then [PrimFloat.sub (c_stop c) (c_start c)] else []
       | _, _ => []
       end)%list.
Proof.
  unfold step, serve, labels_of, home_view, vote_view, result_view.
  destruct (c_route c); simpl endpoint_of.
  - now apply track_metrics_observations.
  - apply track_metrics_observations. apply vote_registry.
  - now apply track_metrics_observations.
  - simpl. now rewrite app_nil_r.
Qed.

(** X10: over any run, the histogram of an endpoint grows by exactly the
    durations [stop - start] of the calls to that endpoint whose handler
    returned, in the order served; a call whose handler raised and a
    /metrics call add nothing. *)
Theorem run_observations (lib : exposition) (cs : list call) (st : state) (e : string) :
  observations e (metrics_registry (run lib cs st)) =
    (observations e (metrics_registry st) ++ durations e cs (fst (run_log lib cs st)))%list.
Proof.
  revert st. induction cs as [|c cs IH]; intros st.
  - simpl. now rewrite app_nil_r.
  - rewrite run_cons, IH, step_observations, run_log_cons.
    cbn [durations]. now rewrite <- app_assoc.
Qed.

(** *** The tallies of a run *)

Lemma step_votes_after lib st c : votes (step lib st c) = votes_after c (votes st).
Proof.
  unfold step, serve, votes_after, home_view, vote_view, result_view.
  destruct (c_route c); try (rewrite track_metrics_votes); try reflexivity.
  rewrite vote_cases. simpl votes.
  destruct (language_of (c_req c)) as [v|e]; [|reflexivity].
  destruct v; simpl; try reflexivity; try (destruct (negb _); reflexivity).
  destruct s as [|a s]; simpl; [reflexivity|].
  unfold bump. destruct (dict_get (String a s) (votes st)); reflexivity.
Qed.

Lemma run_votes_fold lib cs st :
  votes (run lib cs st) = fold_left (fun vs c => votes_after c vs) cs (votes st).
Proof.
  revert st. induction cs as [|c cs IH]; intros st; [reflexivity|].
  rewrite run_cons, IH, step_votes_after. reflexivity.
Qed.

Lemma dict_set_comm {V} (a b : string) (x y : V) (d : list (string * V)) :
  a <> b -> dict_mem a d = true -> dict_mem b d = true ->
  dict_set a x (dict_set b y d) = dict_set b y (dict_set a x d).
Proof.
  intros Hab. unfold dict_mem.
  induction d as [|[k v] d IH]; simpl; [discriminate|].
  destruct (String.eqb a k) eqn:Ea, (String.eqb b k) eqn:Eb; simpl;
    rewrite ?Ea, ?Eb; try reflexivity.
  - apply String.eqb_eq in Ea, Eb. congruence.
  - intros Ha Hb. now rewrite IH.
Qed.

Lemma bump_get_ne a b vs : a <> b -> dict_get b (bump a vs) = dict_get b vs.
Proof.
  intros Hab. unfold bump. destruct (dict_get a vs); [|reflexivity].
  now apply dict_get_set_ne.
Qed.

Lemma bump_comm a b vs : bump a (bump b vs) = bump b (bump a vs).
Proof.
  destruct (String.eqb a b) eqn:E.
  - apply String.eqb_eq in E. now subst.
  - apply String.eqb_neq in E.
    assert (E' : b <> a) by congruence.
    unfold bump at 1 3. rewrite !bump_get_ne by assumption.
    destruct (dict_get a vs) as [n|] eqn:Ha, (dict_get b vs) as [m|] eqn:Hb;
      unfold bump; rewrite ?Ha, ?Hb; try reflexivity.
    apply dict_set_comm; [assumption | |]; unfold dict_mem; now rewrite ?Ha, ?Hb.
Qed.

Lemma votes_after_comm c1 c2 vs :
  votes_after c1 (votes_after c2 vs) = votes_after c2 (votes_after c1 vs).
Proof.
  unfold votes_after.
  destruct (c_route c1), (c_route c2); try reflexivity.
  destruct (language_of (c_req c1)) as [[]|], (language_of (c_req c2)) as [[]|];
    try reflexivity.
  destruct (str_empty s), (str_empty s0); try reflexivity.
  apply bump_comm.
Qed.

Lemma fold_votes_after_perm cs cs' :
  Permutation cs cs' ->
  forall vs,
    fold_left (fun vs c => votes_after c vs) cs vs =
    fold_left (fun vs c => votes_after c vs) cs' vs.
Proof.
  induction 1 as [|c l l' _ IH|c1 c2 l|l1 l2 l3 _ IH1 _ IH2]; intros vs; simpl.
  - reflexivity.
  - apply IH.
  - now rewrite votes_after_comm.
  - now rewrite IH1.
Qed.

(** X11: the final tallies do not depend on the order in which the requests
    are served, nor on the metrics or the exposition library: two runs over
    the same calls in any order, from states with the same vote store, end
    with the same vote store. *)
Theorem run_votes_permutation (lib lib' : exposition) (cs cs' : list call)
    (st st' : state) :
  Permutation cs cs' -> votes st = votes st' ->
  votes (run lib cs st) = votes (run lib' cs' st').
Proof.
  intros Hp Hv. rewrite !run_votes_fold, Hv. now apply fold_votes_after_perm.
Qed.

Lemma run_votes_permutation_witness :
  votes (run sample_lib
           [vote_call (form_post "Go"); vote_call (json_post (PStr "Java"));
            vote_call (form_post "Rust")] init) =
  votes (run sample_lib
           [vote_call (json_post (PStr "Java")); vote_call (form_post "Go");
            vote_call (form_post "Rust")]
           (counted "/" get_request init)).
Proof.
  apply (run_votes_permutation sample_lib sample_lib).
  - apply perm_swap.
  - reflexivity.
Defined.

Lemma tally_sum_set k m n vs :
  dict_get k vs = Some n -> tally_sum (dict_set k m vs) = tally_sum vs - n + m.
Proof.
  unfold tally_sum. induction vs as [|[k' v] vs IH]; simpl; [discriminate|].
  destruct (String.eqb k k'); simpl.
  - intros [= ->]. lia.
  - intros H. rewrite IH by assumption. lia.
Qed.

Lemma step_tally_sum lib st c :
  tally_sum (votes (step lib st c)) =
    tally_sum (votes st) + (if is_recorded c (fst (serve lib c st)) then 1 else 0).
Proof.
  unfold step, serve, is_recorded, home_view, result_view.
  destruct (c_route c); try (rewrite track_metrics_votes; simpl; lia).
  - destruct (vote_view_outcomes (c_start c) (c_stop c) (c_req c) st)
      as [(e & _ & ->) | [(msg & ->) | (l & n & _ & Hn & ->)]]; simpl; try lia.
    rewrite (tally_sum_set l (n + 1) n) by assumption. lia.
  - simpl. lia.
Qed.

(** X12: over any run, the sum of all tallies grows by exactly the number
    of /vote calls that were answered 200. *)
Theorem run_tally_sum (lib : exposition) (cs : list call) (st : state) :
  tally_sum (votes (run lib cs st)) =
    tally_sum (votes st) + count_recorded cs (fst (run_log lib cs st)).
Proof.
  revert st. induction cs as [|c cs IH]; intros st.
  - simpl. lia.
  - rewrite run_cons, IH, step_tally_sum, run_log_cons.
    cbn [count_recorded]. lia.
Qed.

(** *** The children of the request counter *)

Lemma step_request_count lib st c k :
  REQUEST_COUNT (metrics_registry (step lib st c)) !! k =
    if bool_decide (labels_of c = Some k)
    then Some (counter_value k (metrics_registry st) + 1)
    else REQUEST_COUNT (metrics_registry st) !! k.
Proof.
  unfold step, serve, labels_of, home_view, vote_view, result_view.
  destruct (c_route c); simpl endpoint_of;
    try rewrite track_metrics_counter; try rewrite vote_registry; simpl;
    try (case_bool_decide as E;
         [injection E as <-; now rewrite lookup_insert_eq
         |rewrite lookup_insert_ne by congruence; reflexivity]).
  reflexivity.
Qed.

Lemma hits_nonneg k cs : 0 <= hits k cs.
Proof. unfold hits. lia. Qed.

Lemma run_request_count lib cs st k :
  REQUEST_COUNT (metrics_registry (run lib cs st)) !! k =
    if Z.eqb (hits k cs) 0
    then REQUEST_COUNT (metrics_registry st) !! k
    else Some (counter_value k (metrics_registry st) + hits k cs).
Proof.
  revert st. induction cs as [|c cs IH]; intros st; [reflexivity|].
  rewrite run_cons, IH, hits_cons, step_counter, step_request_count.
  pose proof (hits_nonneg k cs) as Hn.
  destruct (bool_decide (labels_of c = Some k));
    destruct (Z.eqb_spec (hits k cs) 0) as [E|E].
  - rewrite E. simpl. f_equal; lia.
  - destruct (Z.eqb_spec (1 + hits k cs) 0); [lia|]. f_equal; lia.
  - rewrite E. reflexivity.
  - destruct (Z.eqb_spec (0 + hits k cs) 0); [lia|]. f_equal; lia.
Qed.

Lemma hits_metrics m cs : hits ("/metrics", m) cs = 0.
Proof.
  induction cs as [|c cs IH]; [reflexivity|].
  rewrite hits_cons, IH. rewrite bool_decide_eq_false_2; [reflexivity|].
  unfold labels_of. destruct (c_route c); simpl; congruence.
Qed.

(** X13: counter children are created on first use and never reset: after
    any run from the initial state, a label pair has a child exactly when
    some call of the run was dispatched to a decorated view under it, and
    the child then holds the number of those calls; no child is ever
    created for the endpoint /metrics. *)
Theorem request_count_children (lib : exposition) (cs : list call)
    (k : string * string) (m : string) :
  REQUEST_COUNT (metrics_registry (run lib cs init)) !! k =
    (if Z.eqb (hits k cs) 0 then None else Some (hits k cs)) /\
  REQUEST_COUNT (metrics_registry (run lib cs init)) !! ("/metrics", m) = None.
Proof.
  split.
  - rewrite run_request_count. destruct (Z.eqb (hits k cs) 0); reflexivity.
  - rewrite run_request_count, hits_metrics. reflexivity.
Qed.

(** ** The remaining path of the decorator and the home page *)

(** X14: the decorator has no handler for exceptions: when the wrapped
    function raises, the wrapper raises the same exception and leaves the
    state the function left, so the request stays counted while no latency
    observation is recorded for it on any endpoint. *)
Theorem track_metrics_propagates (endpoint : string) (func : handler)
    (start stop : float) (req : request) (st st2 : state) (e : exn) :
  func req (counted endpoint req st) = (Raise e, st2) ->
  track_metrics endpoint func start stop req st = (Raise e, st2) /\
  counter_value (endpoint, method req) (metrics_registry (counted endpoint req st)) =
    counter_value (endpoint, method req) (metrics_registry st) + 1 /\
  forall e',
    observations e' (metrics_registry (snd (track_metrics endpoint func start stop req st))) =
      observations e' (metrics_registry st2).
Proof.
  intros Hf. rewrite track_metrics_run, Hf. split; [reflexivity|].
  split; [|reflexivity].
  unfold counted. simpl metrics_registry.
  rewrite counter_value_inc, bool_decide_eq_true_2; reflexivity.
Qed.

Lemma track_metrics_propagates_witness :
  track_metrics "/vote" vote 0%float 1%float (json_post (PDict [("a", PNone)])) init =
    (Raise TypeError, counted "/vote" (json_post (PDict [("a", PNone)])) init) /\
  counter_value ("/vote", "POST")
      (metrics_registry (counted "/vote" (json_post (PDict [("a", PNone)])) init)) =
    counter_value ("/vote", "POST") (metrics_registry init) + 1 /\
  forall e',
    observations e'
      (metrics_registry
         (snd (track_metrics "/vote" vote 0%float 1%float
                 (json_post (PDict [("a", PNone)])) init))) =
      observations e'
        (metrics_registry (counted "/vote" (json_post (PDict [("a", PNone)])) init)).
Proof.
  apply (track_metrics_propagates "/vote" vote 0%float 1%float
           (json_post (PDict [("a", PNone)])) init
           (counted "/vote" (json_post (PDict [("a", PNone)])) init) TypeError).
  reflexivity.
Defined.

(** X15: GET / never fails and never touches the vote store: for every
    request and state the decorated view returns the same page, counts the
    request under ("/", method) and records one latency observation for
    "/", leaving the votes, the other counters and the other histograms as
    they were. *)
Theorem home_view_static (start stop : float) (req : request) (st : state) :
  exists st',
    home_view start stop req st = (Ret (Html home_page), st') /\
    votes st' = votes st /\
    (forall k, counter_value k (metrics_registry st') =
       counter_value k (metrics_registry st) +
         (if bool_decide (("/", method req) = k) then 1 else 0)) /\
    (forall e, observations e (metrics_registry st') =
       (observations e (metrics_registry st) ++
          (if String.eqb "/" e then [PrimFloat.sub stop start] else []))%list).
Proof.
  eexists. unfold home_view. rewrite track_metrics_run. simpl.
  split; [reflexivity|]. split; [reflexivity|]. split.
  - intros k. apply (counter_value_inc k _ (metrics_registry st)).
  - intros e.
    apply (observations_observe e "/" _ (counter_inc ("/", method req) (metrics_registry st))).
Qed.

(** ** Requests without an option *)








(** ** Form field before JSON body *)



